(** * stochastic-minigrid: the object codec and the teleporter tile

    A shallow embedding of [stochastic_envs/custom_objects.py]: the table of
    object types, the base class [WorldObj] with its capability methods and
    its [encode]/[decode] pair, and the [Teleporter] class with its
    constructor and its [render] method.

    The module imports its colour tables, the classes of the other tiles and
    the drawing helpers from the [minigrid] package.  The tables are taken as
    the fields of the class [Minigrid]; the other tiles are kept as the
    constructor calls [decode] makes; the drawing helpers are modelled over
    rational coordinates. *)

From Stdlib Require Import QArith Lqa.
From stdpp Require Import gmap strings list fin_maps.

Local Open Scope Z_scope.

(** ** Exceptions *)

(** The two ways the code stops: a failed dictionary subscript and a failed
    [assert]. *)
Inductive exn := KeyError | AssertionError.

Inductive result (A : Type) :=
  | Return (a : A)
  | Raise (e : exn).
Arguments Return {A} a.
Arguments Raise {A} e.

Global Instance result_ret : MRet result := @Return.
Global Instance result_bind : MBind result := λ A B f m,
  match m with
  | Return a => f a
  | Raise e => Raise e
  end.
Global Instance result_fmap : FMap result := λ A B f m,
  match m with
  | Return a => Return (f a)
  | Raise e => Raise e
  end.

(** [d[k]] on a dictionary. *)
Definition getitem `{Countable K} {V} (d : gmap K V) (k : K) : result V :=
  match d !! k with
  | Some v => Return v
  | None => Raise KeyError
  end.

(** [assert b]. *)
Definition assert (b : bool) : result unit :=
  if b then Return tt else Raise AssertionError.

(** [k in d] on a dictionary. *)
Definition contains_key `{Countable K} {V} (k : K) (d : gmap K V) : bool :=
  bool_decide (is_Some (d !! k)).

(** ** What the module imports from minigrid *)

(** A colour value: [np.array([r, g, b])].  The components are rationals so
    that [0.5 * np.array(c)] is exact. *)
Definition rgb : Type := Q * Q * Q.

Class Minigrid := {
  COLOR_TO_IDX : gmap string Z;
  IDX_TO_COLOR : gmap Z string;
  COLORS : gmap string rgb;
}.

(** The element type of the pixel buffer handed to [render], and the
    conversion numpy applies when a colour is assigned to [img[y, x]]. *)
Class Dtype := {
  px : Type;
  store : rgb → px;
}.

(** ** The object table *)

(** The items of the dictionary literal, in the order written. *)
Definition OBJECT_TO_IDX_items : list (string * Z) :=
  [ ("unseen", 0); ("empty", 1); ("wall", 2); ("floor", 3); ("door", 4);
    ("key", 5); ("ball", 6); ("box", 7); ("goal", 8); ("lava", 9);
    ("agent", 10); ("teleporter", 11) ].

Definition OBJECT_TO_IDX : gmap string Z := list_to_map OBJECT_TO_IDX_items.

(** [dict(zip(OBJECT_TO_IDX.values(), OBJECT_TO_IDX.keys()))] *)
Definition IDX_TO_OBJECT : gmap Z string :=
  list_to_map (zip (OBJECT_TO_IDX_items.*2) (OBJECT_TO_IDX_items.*1)).

Definition Point : Type := Z * Z.

(** ** Objects *)

(** An instance of [Teleporter]: the attributes [WorldObj.__init__] sets and
    those [Teleporter.__init__] adds.  [O] is the type of the object that
    [contains] may hold. *)
Record TeleporterOf (O : Type) := MkTeleporter {
  type : string;
  color : string;
  contains : option O;
  init_pos : option Point;
  cur_pos : option Point;
  is_active : bool;
  active_colour : string;
  inactive_colour : string;
}.
Arguments MkTeleporter {O}.
Arguments type {O}.
Arguments color {O}.
Arguments contains {O}.
Arguments init_pos {O}.
Arguments cur_pos {O}.
Arguments is_active {O}.
Arguments active_colour {O}.
Arguments inactive_colour {O}.

Local Set Warnings "-register-all".

(** The objects [decode] returns.  The tiles of the host classes are held as
    the constructor calls [decode] makes. *)
Inductive obj :=
  | Wall (color : string)
  | Floor (color : string)
  | Ball (color : string)
  | Key (color : string)
  | Box (color : string)
  | Door (color : string) (is_open is_locked : bool)
  | Goal
  | Lava
  | Tele (t : TeleporterOf obj).

Abbreviation Teleporter := (TeleporterOf obj).

(** ** Pixel buffers and the drawing helpers *)

(** An array of shape (rows, columns, 3): a list of rows of pixels. *)
Abbreviation image := (list (list px)).

Section rendering.
Context `{Dtype}.

Definition shape0 (img : image) : nat := length img.
Definition shape1 (img : image) : nat := length (default [] (head img)).

(** [img[y, x]] *)
Definition pixel (img : image) (y x : nat) : option px :=
  row ← img !! y; row !! x.

(** Modelled from the spec: [point_in_circle] is a helper of
    minigrid.utils.rendering, the predicate of the points inside the disk
    of radius [r] about [(cx, cy)]: those whose squared distance to the
    centre is at most [r * r].  Rationals stand for the floats of the
    code. *)
Definition point_in_circle (cx cy r : Q) : Q → Q → bool := λ x y,
  Qle_bool ((x - cx) * (x - cx) + (y - cy) * (y - cy)) (r * r).

(** Modelled from the spec: the normalized coordinate [fill_coords] gives
    to pixel [i] of [n], the one of its centre, [(i + 0.5) / n]; the range
    [0, 1] covers the tile, with the origin at the top left. *)
Definition coord (i n : nat) : Q :=
  (inject_Z (Z.of_nat i) + 0.5) / inject_Z (Z.of_nat n).

(** Modelled from the spec: [fill_coords] is a helper of
    minigrid.utils.rendering.  It paints the pixels whose normalized
    coordinates satisfy the shape predicate and leaves the others
    untouched. *)
Definition fill_coords (img : image) (fn : Q → Q → bool) (color : rgb)
    : image :=
  imap (λ y row,
    imap (λ x p,
      let yf := coord y (shape0 img) in
      let xf := coord x (shape1 img) in
      if fn xf yf then store color else p) row) img.

(** [0.5 * np.array(c)] *)
Definition scale (k : Q) (c : rgb) : rgb :=
  let '(r, g, b) := c in (k * r, k * g, k * b)%Q.

Definition black : rgb := (0, 0, 0)%Q.

(** The squared distance of the centre of pixel [(y, x)] to the centre of
    the tile, in normalized coordinates. *)
Definition dist2 (img : image) (y x : nat) : Q :=
  let xf := coord x (shape1 img) in
  let yf := coord y (shape0 img) in
  ((xf - 0.5) * (xf - 0.5) + (yf - 0.5) * (yf - 0.5))%Q.

(** The disks of a teleporter, outermost first, for a ring colour [c]. *)
Definition disk_sequence (c : rgb) : list (Q * rgb) :=
  [ (0.48, c); (0.40, black); (0.20, c); (0.16, black); (0.12, c) ]%Q.

Definition fill_disks (ds : list (Q * rgb)) (img : image) : image :=
  foldl (λ im d, fill_coords im (point_in_circle 0.5 0.5 d.1) d.2) img ds.

(** Which fill a pixel is left with: the last disk of the sequence that
    holds it, the innermost one. *)
Inductive layer := Coloured | Blacked | Untouched.

Definition layer_at (d : Q) : layer :=
  if Qle_bool d (0.12 * 0.12) then Coloured
  else if Qle_bool d (0.16 * 0.16) then Blacked
  else if Qle_bool d (0.20 * 0.20) then Coloured
  else if Qle_bool d (0.40 * 0.40) then Blacked
  else if Qle_bool d (0.48 * 0.48) then Coloured
  else Untouched.

Definition painted (c : rgb) (l : layer) (p : px) : px :=
  match l with
  | Coloured => store c
  | Blacked => store black
  | Untouched => p
  end.

(** A squared distance that is exactly the square of one of the five
    radii.  There the rationals of the model decide a comparison that the
    floats of the code decide by their rounding. *)
Definition on_disk_boundary (d : Q) : Prop :=
  (d == 0.12 * 0.12 ∨ d == 0.16 * 0.16 ∨ d == 0.20 * 0.20
   ∨ d == 0.40 * 0.40 ∨ d == 0.48 * 0.48)%Q.
End rendering.

(** ** class WorldObj

    [Teleporter] is the one class of the module that derives from it; the
    methods take its instances. *)

Module WorldObj.
Section methods.
Context `{Minigrid}.

(** [WorldObj.__init__(self, type, color)].  The first three arguments
    are the attributes [Teleporter.__init__] has already set on [self]
    when it calls [super().__init__]. *)
Definition init (is_active : bool) (active_colour inactive_colour : string)
    (type color : string) : result Teleporter :=
  _ ← assert (contains_key type OBJECT_TO_IDX);
  _ ← assert (contains_key color COLOR_TO_IDX);
  mret (MkTeleporter type color None None None
          is_active active_colour inactive_colour).

Definition can_overlap (self : Teleporter) : bool := false.
Definition can_pickup (self : Teleporter) : bool := false.
Definition can_contain (self : Teleporter) : bool := false.
Definition see_behind (self : Teleporter) : bool := true.

(** [toggle] neither reads nor writes [self] or [env]; the states after
    the call are returned next to the result. *)
Definition toggle {Env : Type} (self : Teleporter) (env : Env)
    (pos : Z * Z) : Teleporter * Env * bool :=
  (self, env, false).

Definition encode (self : Teleporter) : result (Z * Z * Z) :=
  t ← getitem OBJECT_TO_IDX (type self);
  c ← getitem COLOR_TO_IDX (color self);
  mret (t, c, 0).
End methods.
End WorldObj.

(** ** class Teleporter(WorldObj) *)

Module Teleporter.
Section methods.
Context `{Minigrid} `{Dtype}.

Definition init (active : bool) (active_colour inactive_colour : string)
    : result Teleporter :=
  let colour := if active then active_colour else inactive_colour in
  WorldObj.init active active_colour inactive_colour "teleporter" colour.

(** [Teleporter()]: the defaults of the constructor's signature. *)
Definition init_default : result Teleporter := init true "blue" "grey".

(** The class overrides none of these; they resolve to [WorldObj]'s. *)
Definition can_overlap : Teleporter → bool := WorldObj.can_overlap.
Definition can_pickup : Teleporter → bool := WorldObj.can_pickup.
Definition can_contain : Teleporter → bool := WorldObj.can_contain.
Definition see_behind : Teleporter → bool := WorldObj.see_behind.
Definition toggle {Env : Type} : Teleporter → Env → Z * Z →
    Teleporter * Env * bool := WorldObj.toggle.
Definition encode : Teleporter → result (Z * Z * Z) := WorldObj.encode.

(** [Teleporter.render(self, img)].  The buffer is written in place; the
    result is the buffer after the call. *)
Definition render (self : Teleporter) (img : image) : result image :=
  active_colour ← getitem COLORS (active_colour self);
  inactive_colour ← getitem COLORS (inactive_colour self);
  if is_active self then
    let img := fill_coords img (point_in_circle 0.5 0.5 0.48) active_colour in
    let img := fill_coords img (point_in_circle 0.5 0.5 0.40) black in
    let img := fill_coords img (point_in_circle 0.5 0.5 0.20) active_colour in
    let img := fill_coords img (point_in_circle 0.5 0.5 0.16) black in
    let img := fill_coords img (point_in_circle 0.5 0.5 0.12) active_colour in
    mret img
  else
    let img := fill_coords img (point_in_circle 0.5 0.5 0.48)
                 (scale 0.5 inactive_colour) in
    let img := fill_coords img (point_in_circle 0.5 0.5 0.40) black in
    let img := fill_coords img (point_in_circle 0.5 0.5 0.20)
                 (scale 0.5 inactive_colour) in
    let img := fill_coords img (point_in_circle 0.5 0.5 0.16) black in
    let img := fill_coords img (point_in_circle 0.5 0.5 0.12)
                 (scale 0.5 inactive_colour) in
    mret img.
End methods.
End Teleporter.

(** ** WorldObj.decode

    The static method, placed after the class it builds. *)

Section decode.
Context `{Minigrid}.

Definition decode (type_idx color_idx state : Z) : result (option obj) :=
  obj_type ← getitem IDX_TO_OBJECT type_idx;
  color ← getitem IDX_TO_COLOR color_idx;
  if (obj_type =? "empty")%string || (obj_type =? "unseen")%string then
    mret None
  else
    let is_open := state =? 0 in
    let is_locked := state =? 2 in
    v ← (if (obj_type =? "wall")%string then mret (Wall color)
         else if (obj_type =? "floor")%string then mret (Floor color)
         else if (obj_type =? "ball")%string then mret (Ball color)
         else if (obj_type =? "key")%string then mret (Key color)
         else if (obj_type =? "box")%string then mret (Box color)
         else if (obj_type =? "door")%string then
           mret (Door color is_open is_locked)
         else if (obj_type =? "goal")%string then mret Goal
         else if (obj_type =? "lava")%string then mret Lava
         else if (obj_type =? "teleporter")%string then
           Tele <$> Teleporter.init_default
         else Raise AssertionError);
    mret (Some v).
End decode.

(** ** Instances of the host tables and of the buffer *)

(** The tables of minigrid.core.constants. *)
Definition minigrid_constants : Minigrid := {|
  COLOR_TO_IDX := list_to_map
    [ ("red", 0); ("green", 1); ("blue", 2); ("purple", 3); ("yellow", 4);
      ("grey", 5) ];
  IDX_TO_COLOR := list_to_map
    [ (0, "red"); (1, "green"); (2, "blue"); (3, "purple"); (4, "yellow");
      (5, "grey") ];
  COLORS := list_to_map
    [ ("red", (255, 0, 0)%Q); ("green", (0, 255, 0)%Q);
      ("blue", (0, 0, 255)%Q); ("purple", (112, 39, 195)%Q);
      ("yellow", (255, 255, 0)%Q); ("grey", (100, 100, 100)%Q) ];
|}.

(** A buffer of dtype uint8: a float assigned to it is truncated towards
    zero. *)
Definition to_uint8 (q : Q) : Z := (Qnum q ÷ Zpos (Qden q)) `mod` 256.

Definition uint8 : Dtype := {|
  px := Z * Z * Z;
  store := λ c, let '(r, g, b) := c in (to_uint8 r, to_uint8 g, to_uint8 b);
|}.

(** A bitmap of one colour, and the teleporter of the default colours. *)
Definition full (h w : nat) (p : Z * Z * Z) : list (list (Z * Z * Z)) :=
  replicate h (replicate w p).

Definition blue_grey (active : bool) : Teleporter :=
  MkTeleporter "teleporter" (if active then "blue" else "grey")
    None None None active "blue" "grey".

(** Case analysis on the name a lookup [H] in [IDX_TO_OBJECT] gave. *)
Ltac object_cases H :=
  unfold IDX_TO_OBJECT in H; apply elem_of_list_to_map_2 in H;
  unfold OBJECT_TO_IDX_items in H;
  cbn in H; rewrite !elem_of_cons, elem_of_nil in H;
  repeat (destruct H as [H | H]; [injection H as -> -> |]);
  [.. | contradiction].

(** * Properties *)

(** ** Dictionaries *)

Lemma getitem_Some `{Countable K} {V} (d : gmap K V) k v :
  d !! k = Some v → getitem d k = Return v.
Proof. intros E. unfold getitem. by rewrite E. Qed.

Lemma getitem_None `{Countable K} {V} (d : gmap K V) k :
  d !! k = None → getitem d k = Raise KeyError.
Proof. intros E. unfold getitem. by rewrite E. Qed.

Lemma getitem_Return `{Countable K} {V} (d : gmap K V) k v :
  getitem d k = Return v ↔ d !! k = Some v.
Proof.
  unfold getitem. split.
  - destruct (d !! k); [intros [= ->]; done | discriminate].
  - intros ->. done.
Qed.

Lemma contains_key_true `{Countable K} {V} (d : gmap K V) k :
  contains_key k d = true ↔ is_Some (d !! k).
Proof. unfold contains_key. apply bool_decide_eq_true. Qed.

Lemma OBJECT_TO_IDX_keys_NoDup : NoDup (OBJECT_TO_IDX_items.*1).
Proof. apply (bool_decide_unpack _). by vm_compute. Qed.

Lemma OBJECT_TO_IDX_values_NoDup : NoDup (OBJECT_TO_IDX_items.*2).
Proof. apply (bool_decide_unpack _). by vm_compute. Qed.

(** The two tables of object types are inverse to each other. *)
Lemma IDX_TO_OBJECT_inverse type_idx name :
  IDX_TO_OBJECT !! type_idx = Some name ↔ OBJECT_TO_IDX !! name = Some type_idx.
Proof.
  unfold IDX_TO_OBJECT, OBJECT_TO_IDX.
  rewrite <- (elem_of_list_to_map _ _ _ OBJECT_TO_IDX_keys_NoDup).
  rewrite <- elem_of_list_to_map.
  - unfold OBJECT_TO_IDX_items. cbn. rewrite !elem_of_cons, !elem_of_nil.
    split; intros Hd;
      repeat (destruct Hd as [Hd | Hd]; [injection Hd as -> ->; tauto |]);
      contradiction.
  - apply (bool_decide_unpack _). by vm_compute.
Qed.

(** The enumerated set of type indices is 0 to 11. *)
Lemma IDX_TO_OBJECT_domain type_idx :
  is_Some (IDX_TO_OBJECT !! type_idx) ↔ 0 ≤ type_idx ≤ 11.
Proof.
  split.
  - intros [name Hn]. unfold IDX_TO_OBJECT in Hn.
    apply elem_of_list_to_map_2 in Hn. revert Hn.
    unfold OBJECT_TO_IDX_items. cbn.
    rewrite !elem_of_cons, elem_of_nil. intros Hd.
    repeat (destruct Hd as [Hd | Hd]; [injection Hd as -> _; lia |]).
    contradiction.
  - intros Hr.
    assert (type_idx ∈ [0; 1; 2; 3; 4; 5; 6; 7; 8; 9; 10; 11]) as Hin.
    { rewrite !elem_of_cons, elem_of_nil. lia. }
    rewrite !elem_of_cons, elem_of_nil in Hin.
    repeat (destruct Hin as [-> | Hin]; [by eexists |]).
    contradiction.
Qed.

Lemma teleporter_in_table : contains_key "teleporter" OBJECT_TO_IDX = true.
Proof. by vm_compute. Qed.


(** ** The constructor *)

Section constructor.
Context `{Minigrid}.

(** The constructor succeeds exactly when the colour it selects is a key
    of [COLOR_TO_IDX]; the other colour is not looked at. *)
Lemma Teleporter_init_Return (active : bool) (ac ic : string) :
  is_Some (COLOR_TO_IDX !! (if active then ac else ic)) →
  Teleporter.init active ac ic =
    Return (MkTeleporter "teleporter" (if active then ac else ic)
              None None None active ac ic).
Proof.
  intros Hc%contains_key_true.
  unfold Teleporter.init, WorldObj.init.
  rewrite teleporter_in_table, Hc. reflexivity.
Qed.

Lemma Teleporter_init_inv (active : bool) (ac ic : string) t :
  Teleporter.init active ac ic = Return t →
  t = MkTeleporter "teleporter" (if active then ac else ic)
        None None None active ac ic.
Proof.
  unfold Teleporter.init, WorldObj.init.
  rewrite teleporter_in_table.
  destruct (contains_key _ COLOR_TO_IDX); cbn; [| discriminate].
  by intros [= <-].
Qed.

Lemma Teleporter_init_Raise (active : bool) (ac ic : string) :
  COLOR_TO_IDX !! (if active then ac else ic) = None →
  Teleporter.init active ac ic = Raise AssertionError.
Proof.
  intros Hc. unfold Teleporter.init, WorldObj.init.
  rewrite teleporter_in_table.
  assert (contains_key (if active then ac else ic) COLOR_TO_IDX = false)
    as ->; [| reflexivity].
  apply not_true_is_false. rewrite contains_key_true, Hc.
  by intros [? ?].
Qed.
End constructor.

(** C3.  A teleporter built by [Teleporter(active, active_colour,
    inactive_colour)] has [color] equal to [active_colour] when [active] is
    true and to [inactive_colour] when it is false, and keeps the three
    arguments in its own attributes. *)
Theorem Teleporter_color_derived `{Minigrid} active ac ic t :
  Teleporter.init active ac ic = Return t →
  color t = (if active then ac else ic)
  ∧ is_active t = active ∧ active_colour t = ac ∧ inactive_colour t = ic.
Proof. intros ->%Teleporter_init_inv. done. Qed.

(** With the tables of minigrid, [Teleporter(True, "blue", "grey")] is blue
    and [Teleporter(False, "blue", "grey")] is grey. *)
Lemma Teleporter_color_derived_witness :
  (∃ t, @Teleporter.init minigrid_constants true "blue" "grey" = Return t
        ∧ color t = "blue")
  ∧ (∃ t, @Teleporter.init minigrid_constants false "blue" "grey" = Return t
        ∧ color t = "grey").
Proof.
  split.
  - eexists. split; [reflexivity |].
    apply (@Teleporter_color_derived minigrid_constants true "blue" "grey").
    reflexivity.
  - eexists. split; [reflexivity |].
    apply (@Teleporter_color_derived minigrid_constants false "blue" "grey").
    reflexivity.
Defined.

(** ** Capabilities *)

(** C7.  On a freshly constructed teleporter, whatever its flag and colours,
    [can_overlap], [can_pickup] and [can_contain] answer false, [see_behind]
    answers true, and [toggle] answers false and leaves the teleporter and
    the environment as they were. *)
Theorem Teleporter_capabilities `{Minigrid} active ac ic t :
  Teleporter.init active ac ic = Return t →
  Teleporter.can_overlap t = false
  ∧ Teleporter.can_pickup t = false
  ∧ Teleporter.can_contain t = false
  ∧ Teleporter.see_behind t = true
  ∧ ∀ (Env : Type) (env : Env) (pos : Z * Z),
      Teleporter.toggle t env pos = (t, env, false).
Proof. intros _. repeat split. Qed.

Lemma Teleporter_capabilities_witness :
  ∃ t, @Teleporter.init minigrid_constants false "red" "purple" = Return t
       ∧ Teleporter.can_overlap t = false
       ∧ Teleporter.see_behind t = true
       ∧ Teleporter.toggle t tt (3, 4) = (t, tt, false).
Proof.
  eexists. split; [reflexivity |].
  destruct (@Teleporter_capabilities minigrid_constants false "red" "purple"
              _ eq_refl) as (Ho & _ & _ & Hs & Ht).
  exact (conj Ho (conj Hs (Ht unit tt (3, 4)))).
Defined.

(** ** decode *)

Section decode_facts.
Context `{Minigrid}.

(** [decode] fails at its first line when the type index has no entry. *)
Lemma decode_unknown_index type_idx color_idx state :
  IDX_TO_OBJECT !! type_idx = None →
  decode type_idx color_idx state = Raise KeyError.
Proof. intros E. unfold decode. by rewrite (getitem_None _ _ E). Qed.

(** ... and at its second when the colour index has none. *)
Lemma decode_unknown_color type_idx color_idx state :
  IDX_TO_COLOR !! color_idx = None →
  decode type_idx color_idx state = Raise KeyError.
Proof.
  intros E. unfold decode. rewrite (getitem_None _ _ E).
  unfold getitem. by destruct (IDX_TO_OBJECT !! type_idx).
Qed.

(** Past the two lookups, [decode] dispatches on the type name. *)
Lemma decode_dispatch type_idx color_idx state name c :
  IDX_TO_OBJECT !! type_idx = Some name →
  IDX_TO_COLOR !! color_idx = Some c →
  decode type_idx color_idx state =
    if (name =? "empty")%string || (name =? "unseen")%string then
      Return None
    else
      v ← (if (name =? "wall")%string then Return (Wall c)
           else if (name =? "floor")%string then Return (Floor c)
           else if (name =? "ball")%string then Return (Ball c)
           else if (name =? "key")%string then Return (Key c)
           else if (name =? "box")%string then Return (Box c)
           else if (name =? "door")%string then
             Return (Door c (state =? 0) (state =? 2))
           else if (name =? "goal")%string then Return Goal
           else if (name =? "lava")%string then Return Lava
           else if (name =? "teleporter")%string then
             Tele <$> Teleporter.init_default
           else Raise AssertionError);
      Return (Some v).
Proof.
  intros En Ec. unfold decode.
  rewrite (getitem_Some _ _ _ En), (getitem_Some _ _ _ Ec). reflexivity.
Qed.

Lemma decode_named name type_idx color_idx state c :
  OBJECT_TO_IDX !! name = Some type_idx →
  IDX_TO_COLOR !! color_idx = Some c →
  decode type_idx color_idx state =
    if (name =? "empty")%string || (name =? "unseen")%string then
      Return None
    else
      v ← (if (name =? "wall")%string then Return (Wall c)
           else if (name =? "floor")%string then Return (Floor c)
           else if (name =? "ball")%string then Return (Ball c)
           else if (name =? "key")%string then Return (Key c)
           else if (name =? "box")%string then Return (Box c)
           else if (name =? "door")%string then
             Return (Door c (state =? 0) (state =? 2))
           else if (name =? "goal")%string then Return Goal
           else if (name =? "lava")%string then Return Lava
           else if (name =? "teleporter")%string then
             Tele <$> Teleporter.init_default
           else Raise AssertionError);
      Return (Some v).
Proof. intros En%IDX_TO_OBJECT_inverse. by apply decode_dispatch. Qed.
End decode_facts.

(** C6.  With a colour index that [IDX_TO_COLOR] knows and any state,
    [decode] at the index of "empty" and at the index of "unseen" returns
    None; and it returns None at no other type index, whatever the colour
    index and state. *)
Theorem decode_None_empty_unseen `{Minigrid} color_idx state :
  is_Some (IDX_TO_COLOR !! color_idx) →
  ∃ e u,
    OBJECT_TO_IDX !! "empty" = Some e ∧ OBJECT_TO_IDX !! "unseen" = Some u
    ∧ decode e color_idx state = Return None
    ∧ decode u color_idx state = Return None
    ∧ ∀ type_idx color_idx' state',
        decode type_idx color_idx' state' = Return None →
        type_idx = e ∨ type_idx = u.
Proof.
  intros [c Hc]. exists 1, 0.
  split; [reflexivity |]. split; [reflexivity |].
  split; [by rewrite (decode_named "empty" 1 _ _ c) |].
  split; [by rewrite (decode_named "unseen" 0 _ _ c) |].
  intros type_idx ci st.
  destruct (IDX_TO_OBJECT !! type_idx) as [name|] eqn:En;
    [| by rewrite decode_unknown_index].
  destruct (IDX_TO_COLOR !! ci) as [c'|] eqn:Ec;
    [| by rewrite decode_unknown_color].
  rewrite (decode_dispatch _ _ _ _ _ En Ec).
  destruct (String.eqb_spec name "empty") as [-> | _].
  { apply IDX_TO_OBJECT_inverse in En. vm_compute in En. left. congruence. }
  destruct (String.eqb_spec name "unseen") as [-> | _].
  { apply IDX_TO_OBJECT_inverse in En. vm_compute in En. right. congruence. }
  cbn [orb].
  repeat (match goal with
          | |- context [String.eqb name ?s] => destruct (String.eqb name s)
          end; [discriminate |]).
  match goal with
  | |- context [String.eqb name ?s] => destruct (String.eqb name s)
  end; [| discriminate].
  destruct Teleporter.init_default; discriminate.
Qed.

Lemma decode_None_empty_unseen_witness :
  @decode minigrid_constants 1 5 0 = Return None
  ∧ @decode minigrid_constants 0 5 0 = Return None.
Proof.
  destruct (@decode_None_empty_unseen minigrid_constants 5 0)
    as (e & u & He & Hu & De & Du & _).
  - exists "grey". reflexivity.
  - vm_compute in He, Hu.
    injection He as <-. injection Hu as <-. exact (conj De Du).
Defined.

(** C2, as the code has it.  With a colour index that [IDX_TO_COLOR] maps to
    [c] and any state: at the index of wall, floor, ball, key or box,
    [decode] returns that variant built with [c]; at the index of door, a
    Door with [c], open when [state] is 0 and locked when it is 2; at the
    indices of goal and lava, [Goal()] and [Lava()], built without the
    colour; at the index of teleporter, an instance of Teleporter, provided
    the constructor's default colour is a key of [COLOR_TO_IDX]; at the
    index of "agent", which is in the table, the final assertion fails; and
    a type index outside the table fails the first lookup. *)
Theorem decode_by_variant `{Minigrid} name type_idx color_idx state c :
  OBJECT_TO_IDX !! name = Some type_idx →
  IDX_TO_COLOR !! color_idx = Some c →
  (name = "wall" → decode type_idx color_idx state = Return (Some (Wall c)))
  ∧ (name = "floor" →
       decode type_idx color_idx state = Return (Some (Floor c)))
  ∧ (name = "ball" → decode type_idx color_idx state = Return (Some (Ball c)))
  ∧ (name = "key" → decode type_idx color_idx state = Return (Some (Key c)))
  ∧ (name = "box" → decode type_idx color_idx state = Return (Some (Box c)))
  ∧ (name = "door" →
       decode type_idx color_idx state =
         Return (Some (Door c (state =? 0) (state =? 2))))
  ∧ (name = "goal" → decode type_idx color_idx state = Return (Some Goal))
  ∧ (name = "lava" → decode type_idx color_idx state = Return (Some Lava))
  ∧ (name = "teleporter" → is_Some (COLOR_TO_IDX !! "blue") →
       ∃ t, decode type_idx color_idx state = Return (Some (Tele t)))
  ∧ (name = "agent" →
       decode type_idx color_idx state = Raise AssertionError)
  ∧ (∀ other, IDX_TO_OBJECT !! other = None →
       decode other color_idx state = Raise KeyError).
Proof.
  intros Hn Hc. rewrite (decode_named _ _ _ _ _ Hn Hc).
  repeat split; try (intros ->; reflexivity).
  - intros -> Hblue. cbn.
    unfold Teleporter.init_default.
    rewrite (Teleporter_init_Return true "blue" "grey" Hblue).
    eexists. reflexivity.
  - intros other Ho. by apply decode_unknown_index.
Qed.

Lemma decode_by_variant_witness :
  @decode minigrid_constants 4 5 2 = Return (Some (Door "grey" false true))
  ∧ @decode minigrid_constants 2 0 0 = Return (Some (Wall "red"))
  ∧ @decode minigrid_constants 8 0 0 = Return (Some Goal).
Proof.
  split; [| split].
  - apply (@decode_by_variant minigrid_constants "door" 4 5 2 "grey");
      reflexivity.
  - apply (@decode_by_variant minigrid_constants "wall" 2 0 0 "red");
      reflexivity.
  - apply (@decode_by_variant minigrid_constants "goal" 8 0 0 "red");
      reflexivity.
Defined.

(** Index 10 belongs to the enumerated set and names neither "empty" nor
    "unseen", index 0 is a valid colour index, and [decode(10, 0, 0)]
    returns no object: it stops at the assertion of the last branch. *)
Lemma decode_agent_fails :
  OBJECT_TO_IDX !! "agent" = Some 10
  ∧ @IDX_TO_COLOR minigrid_constants !! 0 = Some "red"
  ∧ @decode minigrid_constants 10 0 0 = Raise AssertionError
  ∧ ¬ ∃ v, @decode minigrid_constants 10 0 0 = Return (Some v).
Proof.
  split; [reflexivity |]. split; [reflexivity |]. split; [reflexivity |].
  intros [v Hv]. vm_compute in Hv. discriminate.
Qed.

(** ** encode, then decode *)

(** Whatever teleporter was encoded, [decode] answers with [Teleporter()]:
    the branch passes neither the colour nor the state on. *)
Lemma decode_encode_Teleporter `{Minigrid} active ac ic t type_idx color_idx
    state c :
  Teleporter.init active ac ic = Return t →
  Teleporter.encode t = Return (type_idx, color_idx, state) →
  IDX_TO_COLOR !! color_idx = Some c →
  is_Some (COLOR_TO_IDX !! "blue") →
  decode type_idx color_idx state =
    Return (Some (Tele (MkTeleporter "teleporter" "blue" None None None
                          true "blue" "grey"))).
Proof.
  intros ->%Teleporter_init_inv He Hc Hblue.
  unfold Teleporter.encode, WorldObj.encode in He. cbn in He.
  destruct (getitem COLOR_TO_IDX _); [| discriminate].
  injection He as <- <- <-.
  rewrite (decode_named "teleporter" 11 _ _ c eq_refl Hc). cbn.
  unfold Teleporter.init_default.
  by rewrite (Teleporter_init_Return true "blue" "grey" Hblue).
Qed.

(** C1, at a red teleporter.  [Teleporter(True, "red", "grey")] is red and
    encodes to (11, 0, 0); decoding that triple gives a teleporter whose
    colour is "blue". *)
Theorem Teleporter_roundtrip_loses_color :
  ∃ t t',
    @Teleporter.init minigrid_constants true "red" "grey" = Return t
    ∧ color t = "red"
    ∧ @Teleporter.encode minigrid_constants t = Return (11, 0, 0)
    ∧ @decode minigrid_constants 11 0 0 = Return (Some (Tele t'))
    ∧ color t' = "blue"
    ∧ color t' ≠ color t.
Proof.
  do 2 eexists.
  split; [reflexivity |]. split; [reflexivity |]. split; [reflexivity |].
  split; [reflexivity |]. split; [reflexivity |]. discriminate.
Qed.

(** ** Fills *)

Section fill_facts.
Context `{Dtype}.

Lemma shape0_fill_coords img fn c :
  shape0 (fill_coords img fn c) = shape0 img.
Proof. unfold shape0, fill_coords. apply length_imap. Qed.

Lemma shape1_fill_coords img fn c :
  shape1 (fill_coords img fn c) = shape1 img.
Proof.
  unfold shape1, fill_coords. destruct img as [| row img]; [done |].
  cbn. apply length_imap.
Qed.

(** A fill paints the pixels that satisfy the predicate and no other. *)
Lemma pixel_fill_coords img fn c y x :
  pixel (fill_coords img fn c) y x =
    (λ p, if fn (coord x (shape1 img)) (coord y (shape0 img))
          then store c else p) <$> pixel img y x.
Proof.
  unfold pixel, fill_coords. rewrite list_lookup_imap.
  destruct (img !! y) as [row |]; cbn; [| done].
  by rewrite list_lookup_imap.
Qed.

Lemma point_in_circle_dist2 img r y x :
  point_in_circle 0.5 0.5 r (coord x (shape1 img)) (coord y (shape0 img))
  = Qle_bool (dist2 img y x) (r * r).
Proof. reflexivity. Qed.

Lemma shape_fill_disks ds img :
  shape0 (fill_disks ds img) = shape0 img
  ∧ shape1 (fill_disks ds img) = shape1 img.
Proof.
  unfold fill_disks. revert img.
  induction ds as [| d ds IH]; intros img; [done |].
  cbn [foldl]. rewrite (proj1 (IH _)), (proj2 (IH _)).
  by rewrite shape0_fill_coords, shape1_fill_coords.
Qed.

Lemma pixel_fill_disks c img y x :
  pixel (fill_disks (disk_sequence c) img) y x =
    painted c (layer_at (dist2 img y x)) <$> pixel img y x.
Proof.
  unfold fill_disks, disk_sequence. cbn [foldl fst snd].
  rewrite !pixel_fill_coords.
  rewrite !shape0_fill_coords, !shape1_fill_coords.
  rewrite !point_in_circle_dist2.
  destruct (pixel img y x) as [p |]; cbn [fmap option_fmap option_map];
    [| done].
  f_equal. unfold layer_at.
  repeat match goal with
         | |- context [Qle_bool ?a ?b] => destruct (Qle_bool a b)
         end; reflexivity.
Qed.


Lemma Qle_bool_false a b : (b < a)%Q → Qle_bool a b = false.
Proof.
  intros Hlt. apply not_true_is_false. rewrite Qle_bool_iff. lra.
Qed.

Lemma Qle_bool_true a b : (a <= b)%Q → Qle_bool a b = true.
Proof. apply Qle_bool_iff. Qed.

Lemma layer_at_core d : (d <= 0.12 * 0.12)%Q → layer_at d = Coloured.
Proof. intros Hd. unfold layer_at. by rewrite Qle_bool_true. Qed.

Lemma layer_at_inner_black d :
  (0.12 * 0.12 < d)%Q → (d <= 0.16 * 0.16)%Q → layer_at d = Blacked.
Proof.
  intros Hlo Hhi. unfold layer_at.
  by rewrite (Qle_bool_false _ _ Hlo), (Qle_bool_true _ _ Hhi).
Qed.

Lemma layer_at_inner_ring d :
  (0.16 * 0.16 < d)%Q → (d <= 0.20 * 0.20)%Q → layer_at d = Coloured.
Proof.
  intros Hlo Hhi. unfold layer_at.
  rewrite (Qle_bool_false d (0.12 * 0.12)) by lra.
  by rewrite (Qle_bool_false _ _ Hlo), (Qle_bool_true _ _ Hhi).
Qed.

Lemma layer_at_outer_black d :
  (0.20 * 0.20 < d)%Q → (d <= 0.40 * 0.40)%Q → layer_at d = Blacked.
Proof.
  intros Hlo Hhi. unfold layer_at.
  rewrite (Qle_bool_false d (0.12 * 0.12)) by lra.
  rewrite (Qle_bool_false d (0.16 * 0.16)) by lra.
  by rewrite (Qle_bool_false _ _ Hlo), (Qle_bool_true _ _ Hhi).
Qed.

Lemma layer_at_outer_ring d :
  (0.40 * 0.40 < d)%Q → (d <= 0.48 * 0.48)%Q → layer_at d = Coloured.
Proof.
  intros Hlo Hhi. unfold layer_at.
  rewrite (Qle_bool_false d (0.12 * 0.12)) by lra.
  rewrite (Qle_bool_false d (0.16 * 0.16)) by lra.
  rewrite (Qle_bool_false d (0.20 * 0.20)) by lra.
  by rewrite (Qle_bool_false _ _ Hlo), (Qle_bool_true _ _ Hhi).
Qed.

Lemma layer_at_outside d : (0.48 * 0.48 < d)%Q → layer_at d = Untouched.
Proof.
  intros Hlo. unfold layer_at.
  rewrite (Qle_bool_false d (0.12 * 0.12)) by lra.
  rewrite (Qle_bool_false d (0.16 * 0.16)) by lra.
  rewrite (Qle_bool_false d (0.20 * 0.20)) by lra.
  rewrite (Qle_bool_false d (0.40 * 0.40)) by lra.
  by rewrite (Qle_bool_false _ _ Hlo).
Qed.
End fill_facts.

(** ** render *)

Section render_facts.
Context `{Minigrid} `{Dtype}.

(** Both colours are looked up before the branch; with both found, the
    method runs the disk sequence with the colour of its branch. *)
Lemma render_active t img ca ci :
  is_active t = true →
  COLORS !! active_colour t = Some ca →
  COLORS !! inactive_colour t = Some ci →
  Teleporter.render t img = Return (fill_disks (disk_sequence ca) img).
Proof.
  intros Ha Hca Hci. unfold Teleporter.render.
  rewrite (getitem_Some _ _ _ Hca), (getitem_Some _ _ _ Hci).
  cbn. by rewrite Ha.
Qed.

Lemma render_inactive t img ca ci :
  is_active t = false →
  COLORS !! active_colour t = Some ca →
  COLORS !! inactive_colour t = Some ci →
  Teleporter.render t img =
    Return (fill_disks (disk_sequence (scale 0.5 ci)) img).
Proof.
  intros Ha Hca Hci. unfold Teleporter.render.
  rewrite (getitem_Some _ _ _ Hca), (getitem_Some _ _ _ Hci).
  cbn. by rewrite Ha.
Qed.

Lemma render_Return_inv t img img' :
  Teleporter.render t img = Return img' →
  ∃ ca ci, COLORS !! active_colour t = Some ca
           ∧ COLORS !! inactive_colour t = Some ci.
Proof.
  unfold Teleporter.render, getitem.
  destruct (COLORS !! active_colour t) as [ca |]; [| discriminate].
  destruct (COLORS !! inactive_colour t) as [ci |]; [| discriminate].
  eauto.
Qed.

Lemma render_missing_colour t img :
  COLORS !! active_colour t = None ∨ COLORS !! inactive_colour t = None →
  Teleporter.render t img = Raise KeyError.
Proof.
  unfold Teleporter.render, getitem. intros [-> | ->]; [done |].
  by destruct (COLORS !! active_colour t).
Qed.

(** The colour of the rings of [t]. *)
Lemma render_pixel t img img' ca ci y x :
  COLORS !! active_colour t = Some ca →
  COLORS !! inactive_colour t = Some ci →
  Teleporter.render t img = Return img' →
  pixel img' y x =
    painted (if is_active t then ca else scale 0.5 ci)
      (layer_at (dist2 img y x)) <$> pixel img y x.
Proof.
  intros Hca Hci. destruct (is_active t) eqn:Ha.
  - rewrite (render_active _ _ _ _ Ha Hca Hci). intros [= <-].
    apply pixel_fill_disks.
  - rewrite (render_inactive _ _ _ _ Ha Hca Hci). intros [= <-].
    apply pixel_fill_disks.
Qed.
End render_facts.


(** C9.  A render, active or not, leaves every pixel farther than 0.48 from
    the centre of the tile as it was. *)
Theorem render_frame `{Minigrid} `{Dtype} t img img' :
  Teleporter.render t img = Return img' →
  ∀ y x, (0.48 * 0.48 < dist2 img y x)%Q → pixel img' y x = pixel img y x.
Proof.
  intros Hr y x Hout.
  destruct (render_Return_inv _ _ _ Hr) as (ca & ci & Hca & Hci).
  rewrite (render_pixel _ _ _ _ _ y x Hca Hci Hr).
  rewrite (layer_at_outside _ Hout).
  by destruct (pixel img y x).
Qed.

(** C8.  An inactive teleporter runs the five disks of radii 0.48, 0.40,
    0.20, 0.16 and 0.12 about (0.5, 0.5), the same sequence an active one
    with the same colours runs, with every coloured fill in the inactive
    colour scaled by 0.5 where the active one uses the active colour. *)
Theorem render_inactive_dimmed `{Minigrid} `{Dtype} t img ca ci :
  is_active t = false →
  COLORS !! active_colour t = Some ca →
  COLORS !! inactive_colour t = Some ci →
  Teleporter.render t img =
    Return (fill_disks
      [ (0.48, scale 0.5 ci); (0.40, black); (0.20, scale 0.5 ci);
        (0.16, black); (0.12, scale 0.5 ci) ]%Q img)
  ∧ scale 0.5 ci = (0.5 * ci.1.1, 0.5 * ci.1.2, 0.5 * ci.2)%Q
  ∧ ∀ t', is_active t' = true →
      active_colour t' = active_colour t →
      inactive_colour t' = inactive_colour t →
      Teleporter.render t' img =
        Return (fill_disks
          [ (0.48, ca); (0.40, black); (0.20, ca); (0.16, black);
            (0.12, ca) ]%Q img).
Proof.
  intros Ha Hca Hci. split; [| split].
  - apply (render_inactive _ _ _ _ Ha Hca Hci).
  - by destruct ci as [[r g] b].
  - intros t' Ha' Eac Eic. rewrite <- Eac in Hca. rewrite <- Eic in Hci.
    apply (render_active _ _ _ _ Ha' Hca Hci).
Qed.

(** C5, as the code has it.  The buffer a render leaves is determined by
    the bitmap and the three attributes [is_active], [active_colour] and
    [inactive_colour]; and an active and an inactive teleporter with the
    same pair of colours leave different buffers whenever some pixel of the
    bitmap lies in a coloured ring and the active colour is stored
    differently from the halved inactive colour. *)
Theorem render_deterministic `{Minigrid} `{Dtype} :
  (∀ (t1 t2 : Teleporter) img,
     is_active t1 = is_active t2 →
     active_colour t1 = active_colour t2 →
     inactive_colour t1 = inactive_colour t2 →
     Teleporter.render t1 img = Teleporter.render t2 img)
  ∧ (∀ (ta ti : Teleporter) img ca ci y x,
       is_active ta = true → is_active ti = false →
       active_colour ti = active_colour ta →
       inactive_colour ti = inactive_colour ta →
       COLORS !! active_colour ta = Some ca →
       COLORS !! inactive_colour ta = Some ci →
       is_Some (pixel img y x) →
       layer_at (dist2 img y x) = Coloured →
       store ca ≠ store (scale 0.5 ci) →
       Teleporter.render ta img ≠ Teleporter.render ti img).
Proof.
  split.
  - intros t1 t2 img Ea Eac Eic. unfold Teleporter.render.
    by rewrite Ea, Eac, Eic.
  - intros ta ti img ca ci y x Ha Hi Eac Eic Hca Hci [p Hp] Hl Hne Heq.
    pose proof (render_active ta img ca ci Ha Hca Hci) as Ra.
    rewrite <- Eac in Hca. rewrite <- Eic in Hci.
    pose proof (render_inactive ti img ca ci Hi Hca Hci) as Ri.
    rewrite Ra, Ri in Heq.
    assert (pixel (fill_disks (disk_sequence ca) img) y x =
            pixel (fill_disks (disk_sequence (scale 0.5 ci)) img) y x)
      as Hpx by congruence.
    rewrite !pixel_fill_disks, Hp, Hl in Hpx. cbn in Hpx.
    by injection Hpx.
Qed.

(** C10, as the code has it.  Two renders over the same bitmap that agree
    on [is_active] and on the colour of that branch leave the same buffer
    whatever the other colour of each, provided that other colour is a key
    of [COLORS]. *)
Theorem render_ignores_other_colour `{Minigrid} `{Dtype}
    (t1 t2 : Teleporter) img :
  is_active t1 = is_active t2 →
  (if is_active t1 then active_colour t1 = active_colour t2
   else inactive_colour t1 = inactive_colour t2) →
  is_Some (COLORS !! (if is_active t1 then inactive_colour t1
                      else active_colour t1)) →
  is_Some (COLORS !! (if is_active t2 then inactive_colour t2
                      else active_colour t2)) →
  Teleporter.render t1 img = Teleporter.render t2 img.
Proof.
  intros Ea. rewrite <- Ea.
  destruct (is_active t1) eqn:Ha; symmetry in Ea;
    intros Ec [o1 Ho1] [o2 Ho2].
  - destruct (COLORS !! active_colour t1) as [ca |] eqn:Hca.
    + rewrite (render_active t1 img ca o1 Ha Hca Ho1).
      rewrite Ec in Hca.
      by rewrite (render_active t2 img ca o2 Ea Hca Ho2).
    + rewrite (render_missing_colour t1) by auto.
      rewrite Ec in Hca. by rewrite (render_missing_colour t2) by auto.
  - destruct (COLORS !! inactive_colour t1) as [ci |] eqn:Hci.
    + rewrite (render_inactive t1 img o1 ci Ha Ho1 Hci).
      rewrite Ec in Hci.
      by rewrite (render_inactive t2 img o2 ci Ea Ho2 Hci).
    + rewrite (render_missing_colour t1) by auto.
      rewrite Ec in Hci. by rewrite (render_missing_colour t2) by auto.
Qed.

(** ** The renders of a blue and grey teleporter into uint8 bitmaps *)


Lemma render_frame_witness :
  ∃ img',
    @Teleporter.render minigrid_constants uint8 (blue_grey false)
      (full 7 7 (9, 9, 9)) = Return img'
    ∧ pixel img' 0 0 = Some (9, 9, 9)
    ∧ pixel img' 6 0 = Some (9, 9, 9).
Proof.
  eexists. split; [vm_compute; reflexivity |].
  pose proof (@render_frame minigrid_constants uint8 (blue_grey false)
                (full 7 7 (9, 9, 9)) _ eq_refl) as Hframe.
  split.
  - apply (Hframe 0%nat 0%nat). by vm_compute.
  - apply (Hframe 6%nat 0%nat). by vm_compute.
Defined.

Lemma render_inactive_dimmed_witness :
  @Teleporter.render minigrid_constants uint8 (blue_grey false)
    (full 3 3 (0, 0, 0)) =
  Return (@fill_disks uint8
    [ (0.48, (50, 50, 50)); (0.40, black); (0.20, (50, 50, 50));
      (0.16, black); (0.12, (50, 50, 50)) ]%Q (full 3 3 (0, 0, 0))).
Proof.
  destruct (@render_inactive_dimmed minigrid_constants uint8
              (blue_grey false) (full 3 3 (0, 0, 0)) (0, 0, 255)%Q
              (100, 100, 100)%Q eq_refl eq_refl eq_refl) as [Hr _].
  rewrite Hr. vm_compute. reflexivity.
Defined.

Lemma render_deterministic_witness :
  @Teleporter.render minigrid_constants uint8 (blue_grey true)
    (full 3 3 (0, 0, 0))
  ≠ @Teleporter.render minigrid_constants uint8 (blue_grey false)
      (full 3 3 (0, 0, 0)).
Proof.
  apply (proj2 (@render_deterministic minigrid_constants uint8)
           (blue_grey true) (blue_grey false) (full 3 3 (0, 0, 0))
           (0, 0, 255)%Q (100, 100, 100)%Q 1%nat 1%nat);
    try reflexivity.
  - by eexists.
  - vm_compute. discriminate.
Defined.

Lemma render_ignores_other_colour_witness :
  @Teleporter.render minigrid_constants uint8 (blue_grey true)
    (full 3 3 (0, 0, 0))
  = @Teleporter.render minigrid_constants uint8
      (MkTeleporter "teleporter" "blue" None None None true "blue" "red")
      (full 3 3 (0, 0, 0)).
Proof.
  apply (@render_ignores_other_colour minigrid_constants uint8);
    try reflexivity; by eexists.
Defined.

(** On a 2 by 2 bitmap every pixel centre is at squared distance 0.125 from
    the centre of the tile, inside the disk of radius 0.40 and outside the
    one of radius 0.20: the active and the inactive render both leave four
    black pixels. *)
Lemma render_2x2_same :
  ∃ ta ti,
    @Teleporter.init minigrid_constants true "blue" "grey" = Return ta
    ∧ @Teleporter.init minigrid_constants false "blue" "grey" = Return ti
    ∧ @Teleporter.render minigrid_constants uint8 ta
        (full 2 2 (255, 255, 255)) = Return (full 2 2 (0, 0, 0))
    ∧ @Teleporter.render minigrid_constants uint8 ti
        (full 2 2 (255, 255, 255)) = Return (full 2 2 (0, 0, 0)).
Proof.
  do 2 eexists. split; [reflexivity |]. split; [reflexivity |].
  split; vm_compute; reflexivity.
Qed.

(** The constructor checks only the colour it selects.  An active teleporter
    whose inactive colour is not a key of [COLORS] is built, and its render
    fails at the lookup, where the render of its twin with a grey inactive
    colour paints the pixel. *)
Lemma render_other_colour_missing :
  ∃ t1 t2,
    @Teleporter.init minigrid_constants true "blue" "grey" = Return t1
    ∧ @Teleporter.init minigrid_constants true "blue" "pink" = Return t2
    ∧ is_active t1 = is_active t2
    ∧ active_colour t1 = active_colour t2
    ∧ @Teleporter.render minigrid_constants uint8 t1 (full 1 1 (0, 0, 0))
      = Return (full 1 1 (0, 0, 255))
    ∧ @Teleporter.render minigrid_constants uint8 t2 (full 1 1 (0, 0, 0))
      = Raise KeyError.
Proof.
  do 2 eexists. split; [reflexivity |]. split; [reflexivity |].
  split; [reflexivity |]. split; [reflexivity |].
  split; vm_compute; reflexivity.
Qed.

(** With the colours of minigrid and a uint8 buffer, no colour is stored as
    the half of another. *)
Lemma palette_half_distinct a i ca ci :
  @COLORS minigrid_constants !! a = Some ca →
  @COLORS minigrid_constants !! i = Some ci →
  @store uint8 ca ≠ @store uint8 (scale 0.5 ci).
Proof.
  intros Ha%elem_of_list_to_map_2 Hi%elem_of_list_to_map_2.
  rewrite !elem_of_cons, elem_of_nil in Ha, Hi.
  repeat (destruct Ha as [Ha | Ha]; [injection Ha as -> -> |]);
    try contradiction;
    repeat (destruct Hi as [Hi | Hi]; [injection Hi as -> -> |]);
    try contradiction; vm_compute; discriminate.
Qed.

(** * Further properties of the codec *)

(** X1.  [IDX_TO_OBJECT] is the inverse of [OBJECT_TO_IDX]: an index names a
    type exactly when the type has that index; the indices in use are 0 to
    11, and no two names share one. *)
Theorem object_tables_inverse :
  (∀ type_idx name,
     IDX_TO_OBJECT !! type_idx = Some name
     ↔ OBJECT_TO_IDX !! name = Some type_idx)
  ∧ (∀ type_idx, is_Some (IDX_TO_OBJECT !! type_idx) ↔ 0 ≤ type_idx ≤ 11)
  ∧ (∀ n1 n2 type_idx,
       OBJECT_TO_IDX !! n1 = Some type_idx →
       OBJECT_TO_IDX !! n2 = Some type_idx → n1 = n2).
Proof.
  split; [apply IDX_TO_OBJECT_inverse |].
  split; [apply IDX_TO_OBJECT_domain |].
  intros n1 n2 i H1%IDX_TO_OBJECT_inverse H2%IDX_TO_OBJECT_inverse.
  congruence.
Qed.

Lemma object_tables_inverse_witness :
  IDX_TO_OBJECT !! 11 = Some "teleporter"
  ∧ (0 ≤ 11 ≤ 11)
  ∧ "teleporter" = "teleporter".
Proof.
  destruct object_tables_inverse as (Hinv & Hdom & Hinj).
  split; [apply (Hinv 11 "teleporter"); reflexivity |].
  split; [apply (Hdom 11); by eexists |].
  apply (Hinj "teleporter" "teleporter" 11); reflexivity.
Defined.

(** X2.  The constructor of [Teleporter] checks the colour it selects and
    no other: it returns an object exactly when [active_colour] (for an
    active teleporter) or [inactive_colour] (for an inactive one) is a key
    of [COLOR_TO_IDX], whatever the other colour is, and stops at an
    assertion otherwise. *)
Theorem Teleporter_init_checks_selected `{Minigrid} (active : bool)
    (ac ic : string) :
  ((∃ t, Teleporter.init active ac ic = Return t)
   ↔ is_Some (COLOR_TO_IDX !! (if active then ac else ic)))
  ∧ (Teleporter.init active ac ic = Raise AssertionError
     ↔ COLOR_TO_IDX !! (if active then ac else ic) = None).
Proof.
  destruct (COLOR_TO_IDX !! (if active then ac else ic)) as [i |] eqn:Hc.
  - assert (is_Some (COLOR_TO_IDX !! (if active then ac else ic))) as Hs
      by (rewrite Hc; by eexists).
    pose proof (Teleporter_init_Return active ac ic Hs) as Hr.
    rewrite Hr. split; split; intros Hx; try done.
    by eexists.
  - pose proof (Teleporter_init_Raise active ac ic Hc) as Hr.
    rewrite Hr. split; split; intros Hx; try done; by destruct Hx.
Qed.

Lemma Teleporter_init_checks_selected_witness :
  (∃ t, @Teleporter.init minigrid_constants true "blue" "pink" = Return t)
  ∧ @Teleporter.init minigrid_constants false "blue" "pink"
    = Raise AssertionError.
Proof.
  split.
  - apply (@Teleporter_init_checks_selected minigrid_constants true).
    by eexists.
  - apply (@Teleporter_init_checks_selected minigrid_constants false).
    reflexivity.
Defined.

(** The constructor has checked the colour [encode] looks up. *)
Lemma encode_of_init `{Minigrid} (active : bool) (ac ic : string) t :
  Teleporter.init active ac ic = Return t →
  ∃ color_idx,
    COLOR_TO_IDX !! (if active then ac else ic) = Some color_idx
    ∧ Teleporter.encode t = Return (11, color_idx, 0).
Proof.
  intros Hi.
  destruct (COLOR_TO_IDX !! (if active then ac else ic)) as [ci |] eqn:Hci;
    [| rewrite (Teleporter_init_Raise _ _ _ Hci) in Hi; discriminate].
  apply Teleporter_init_inv in Hi as ->.
  exists ci. split; [done |].
  unfold Teleporter.encode, WorldObj.encode. cbn [type color].
  rewrite (getitem_Some _ _ _ Hci).
  by rewrite (getitem_Some OBJECT_TO_IDX "teleporter" 11).
Qed.

(** X3.  [encode] does not fail on a teleporter the constructor built: it
    returns the index 11 of "teleporter", the index of the object's colour
    and the state 0. *)
Theorem encode_constructed `{Minigrid} (active : bool) (ac ic : string) t :
  Teleporter.init active ac ic = Return t →
  ∃ color_idx,
    COLOR_TO_IDX !! (if active then ac else ic) = Some color_idx
    ∧ Teleporter.encode t = Return (11, color_idx, 0).
Proof. apply encode_of_init. Qed.

Lemma encode_constructed_witness :
  ∃ t, @Teleporter.init minigrid_constants false "blue" "grey" = Return t
       ∧ @Teleporter.encode minigrid_constants t = Return (11, 5, 0).
Proof.
  eexists. split; [reflexivity |].
  destruct (@encode_constructed minigrid_constants false "blue" "grey" _
              eq_refl) as (ci & Hci & He).
  vm_compute in Hci. injection Hci as <-. exact He.
Defined.



(** X5.  Decoding the encoding of a constructed teleporter always gives the
    teleporter [Teleporter()] builds, active, blue and grey; it gives the
    encoded teleporter back only when that one was built with these three
    arguments.  The colour tables are taken to map each colour index back,
    and to know "blue". *)
Theorem decode_encode_gives_default `{Minigrid} (active : bool)
    (ac ic : string) t :
  (∀ name i, COLOR_TO_IDX !! name = Some i → is_Some (IDX_TO_COLOR !! i)) →
  is_Some (COLOR_TO_IDX !! "blue") →
  Teleporter.init active ac ic = Return t →
  ∃ type_idx color_idx state,
    Teleporter.encode t = Return (type_idx, color_idx, state)
    ∧ decode type_idx color_idx state =
        Return (Some (Tele (MkTeleporter "teleporter" "blue" None None None
                              true "blue" "grey")))
    ∧ (decode type_idx color_idx state = Return (Some (Tele t))
       ↔ active = true ∧ ac = "blue" ∧ ic = "grey").
Proof.
  intros Hback Hblue Hi.
  destruct (encode_of_init active ac ic t Hi) as (ci & Hci & He).
  destruct (Hback _ _ Hci) as [c Hc].
  pose proof (decode_encode_Teleporter active ac ic t 11 ci 0 c Hi He Hc
                Hblue) as Hd.
  exists 11, ci, 0. split; [done |]. split; [done |].
  rewrite Hd. apply Teleporter_init_inv in Hi as ->. split.
  - intros [= _ <- <- <-]. done.
  - intros (-> & -> & ->). done.
Qed.

Lemma decode_encode_gives_default_witness :
  ∃ t type_idx color_idx state,
    @Teleporter.init minigrid_constants false "red" "yellow" = Return t
    ∧ @Teleporter.encode minigrid_constants t
      = Return (type_idx, color_idx, state)
    ∧ @decode minigrid_constants type_idx color_idx state
      = Return (Some (Tele (blue_grey true))).
Proof.
  exists (MkTeleporter "teleporter" "yellow" None None None
            false "red" "yellow").
  destruct (@decode_encode_gives_default minigrid_constants false "red"
              "yellow"
              (MkTeleporter "teleporter" "yellow" None None None
                 false "red" "yellow"))
    as (ti & ci & st & He & Hd & _).
  - intros name i Hn%elem_of_list_to_map_2.
    rewrite !elem_of_cons, elem_of_nil in Hn.
    repeat (destruct Hn as [Hn | Hn];
            [injection Hn as -> ->; eexists; reflexivity |]).
    contradiction.
  - by eexists.
  - reflexivity.
  - exists ti, ci, st. split; [reflexivity |]. split; [exact He | exact Hd].
Defined.

(** X6.  When [decode] raises.  A KeyError comes from the two lookups: the
    type index is outside the table or the colour index is unknown, the
    latter also at the indices of "empty" and "unseen".  An AssertionError
    comes, with a known colour index, at the index 10 of "agent", and at
    the index 11 of "teleporter" when "blue" is not a colour of the
    table. *)
Theorem decode_raises `{Minigrid} type_idx color_idx state :
  (decode type_idx color_idx state = Raise KeyError
   ↔ IDX_TO_OBJECT !! type_idx = None ∨ IDX_TO_COLOR !! color_idx = None)
  ∧ (decode type_idx color_idx state = Raise AssertionError
     ↔ is_Some (IDX_TO_COLOR !! color_idx)
       ∧ (type_idx = 10
          ∨ type_idx = 11 ∧ COLOR_TO_IDX !! "blue" = None)).
Proof.
  destruct (IDX_TO_OBJECT !! type_idx) as [name |] eqn:En.
  2: { rewrite (decode_unknown_index _ _ _ En).
       pose proof (proj2 (IDX_TO_OBJECT_domain type_idx)) as Hdom.
       rewrite En in Hdom.
       split; split; try done; [by left |].
       intros [_ Hi]. destruct Hdom as [? ?]; [lia | done]. }
  destruct (IDX_TO_COLOR !! color_idx) as [c |] eqn:Ec.
  2: { rewrite (decode_unknown_color _ _ _ Ec).
       split; split; try done; [by right |].
       intros [[? ?] _]. done. }
  rewrite (decode_dispatch _ _ _ _ _ En Ec).
  object_cases En; cbn;
    try (split; split;
         [ discriminate | intros [? | ?]; discriminate
         | discriminate
         | intros [_ [? | [? _]]]; lia ]).
  - split; split; try done.
    + intros [? | ?]; discriminate.
    + intros _. split; [by eexists | by left].
  - unfold Teleporter.init_default.
    destruct (COLOR_TO_IDX !! "blue") as [b |] eqn:Hb.
    + rewrite (Teleporter_init_Return true "blue" "grey")
        by (cbn; rewrite Hb; by eexists).
      cbn. split; split; try done.
      * intros [? | ?]; discriminate.
      * intros [_ [? | [_ ?]]]; [lia | discriminate].
    + rewrite (Teleporter_init_Raise true "blue" "grey") by exact Hb.
      cbn. split; split; try done.
      * intros [? | ?]; discriminate.
      * intros _. split; [by eexists | by right].
Qed.

Lemma decode_raises_witness :
  @decode minigrid_constants 1 6 0 = Raise KeyError
  ∧ @decode minigrid_constants 12 0 0 = Raise KeyError
  ∧ @decode minigrid_constants 10 0 0 = Raise AssertionError.
Proof.
  split; [| split].
  - apply (@decode_raises minigrid_constants 1 6 0). right. reflexivity.
  - apply (@decode_raises minigrid_constants 12 0 0). left. reflexivity.
  - apply (@decode_raises minigrid_constants 10 0 0).
    split; [by eexists | by left].
Defined.

(** X7.  [decode] reads [state] for doors only: at every type index other
    than the door's the result is the same for all states.  At the door's
    index it does not validate the state: 0 gives an open door, 2 a locked
    one, and every other integer a closed, unlocked one; no decoded door is
    both open and locked. *)
Theorem decode_state_for_doors_only `{Minigrid} type_idx color_idx c :
  IDX_TO_COLOR !! color_idx = Some c →
  (IDX_TO_OBJECT !! type_idx ≠ Some "door" →
     ∀ state state',
       decode type_idx color_idx state = decode type_idx color_idx state')
  ∧ (IDX_TO_OBJECT !! type_idx = Some "door" →
       ∀ state,
         decode type_idx color_idx state =
           Return (Some (Door c (state =? 0) (state =? 2)))
         ∧ (state =? 0) && (state =? 2) = false
         ∧ (state ≠ 0 → state ≠ 2 →
              decode type_idx color_idx state =
                Return (Some (Door c false false)))).
Proof.
  intros Hc. split.
  - intros Hnd st st'.
    destruct (IDX_TO_OBJECT !! type_idx) as [name |] eqn:En;
      [| by rewrite !decode_unknown_index].
    rewrite !(decode_dispatch _ _ _ _ _ En Hc).
    object_cases En; try reflexivity. by destruct Hnd.
  - intros En st. rewrite (decode_dispatch _ _ _ _ _ En Hc). cbn.
    split; [done |]. split.
    + destruct (Z.eqb_spec st 0) as [-> | ?]; [done |]. done.
    + intros H0%Z.eqb_neq H2%Z.eqb_neq. by rewrite H0, H2.
Qed.

Lemma decode_state_for_doors_only_witness :
  @decode minigrid_constants 5 3 7 = @decode minigrid_constants 5 3 0
  ∧ @decode minigrid_constants 4 3 7
    = Return (Some (Door "purple" false false)).
Proof.
  destruct (@decode_state_for_doors_only minigrid_constants 5 3 "purple"
              eq_refl) as [Hother _].
  destruct (@decode_state_for_doors_only minigrid_constants 4 3 "purple"
              eq_refl) as [_ Hdoor].
  split.
  - apply Hother. discriminate.
  - apply (Hdoor eq_refl 7); discriminate.
Defined.

(** * Further properties of the rendering *)

Section buffer_facts.
Context `{Dtype}.

(** A fill keeps the length of every row. *)
Lemma fill_coords_row_length (img : image) fn c y :
  length <$> (fill_coords img fn c !! y) = length <$> (img !! y).
Proof.
  unfold fill_coords. rewrite list_lookup_imap.
  destruct (img !! y) as [row |]; cbn; [| done].
  by rewrite length_imap.
Qed.

Lemma fill_disks_row_length ds (img : image) y :
  length <$> (fill_disks ds img !! y) = length <$> (img !! y).
Proof.
  unfold fill_disks. revert img.
  induction ds as [| d ds IH]; intros img; [done |].
  cbn [foldl]. rewrite IH. apply fill_coords_row_length.
Qed.

(** Two buffers with the same rows lengths and the same pixels are equal. *)
Lemma image_ext (img1 img2 : image) :
  length img1 = length img2 →
  (∀ y, length <$> (img1 !! y) = length <$> (img2 !! y)) →
  (∀ y x, pixel img1 y x = pixel img2 y x) →
  img1 = img2.
Proof.
  intros Hlen Hrows Hpx.
  apply (list_eq_same_length _ _ (length img2)); [done | done |].
  intros y r1 r2 _ H1 H2.
  pose proof (Hrows y) as Hr. rewrite H1, H2 in Hr. cbn in Hr.
  injection Hr as Hr.
  apply (list_eq_same_length _ _ (length r2)); [done | done |].
  intros x p1 p2 _ Hp1 Hp2.
  pose proof (Hpx y x) as Hp. unfold pixel in Hp.
  rewrite H1, H2 in Hp. cbn in Hp. congruence.
Qed.

(** The distances are those of the shape. *)
Lemma dist2_shape (img1 img2 : image) y x :
  shape0 img1 = shape0 img2 → shape1 img1 = shape1 img2 →
  dist2 img1 y x = dist2 img2 y x.
Proof. unfold dist2. by intros -> ->. Qed.

(** A later sequence of disks covers an earlier one. *)
Lemma painted_painted c1 c2 l (p : px) :
  painted c2 l (painted c1 l p) = painted c2 l p.
Proof. by destruct l. Qed.

Lemma fill_disks_covers c1 c2 (img : image) :
  fill_disks (disk_sequence c2) (fill_disks (disk_sequence c1) img)
  = fill_disks (disk_sequence c2) img.
Proof.
  apply image_ext.
  - pose proof shape_fill_disks as Hs. unfold shape0 in Hs.
    by rewrite !(proj1 (Hs _ _)).
  - intros y. by rewrite !fill_disks_row_length.
  - intros y x. rewrite !pixel_fill_disks.
    rewrite (dist2_shape (fill_disks (disk_sequence c1) img) img)
      by apply shape_fill_disks.
    destruct (pixel img y x) as [p |]; cbn; [| done].
    by rewrite painted_painted.
Qed.
End buffer_facts.

Section render_more.
Context `{Minigrid} `{Dtype}.

(** The buffer a render returns is one of the two sequences of disks. *)
Lemma render_Return_disks t img img' :
  Teleporter.render t img = Return img' →
  ∃ c, img' = fill_disks (disk_sequence c) img
       ∧ ∀ img0, Teleporter.render t img0
                 = Return (fill_disks (disk_sequence c) img0).
Proof.
  intros Hr.
  destruct (render_Return_inv _ _ _ Hr) as (ca & ci & Hca & Hci).
  destruct (is_active t) eqn:Ha.
  - exists ca. rewrite (render_active _ _ _ _ Ha Hca Hci) in Hr.
    split; [congruence |]. intros img0.
    apply (render_active _ _ _ _ Ha Hca Hci).
  - exists (scale 0.5 ci).
    rewrite (render_inactive _ _ _ _ Ha Hca Hci) in Hr.
    split; [congruence |]. intros img0.
    apply (render_inactive _ _ _ _ Ha Hca Hci).
Qed.
End render_more.

(** X8.  A render keeps the shape of the bitmap: the number of rows, the
    length of every row, and so which pixels exist. *)
Theorem render_keeps_shape `{Minigrid} `{Dtype} t img img' :
  Teleporter.render t img = Return img' →
  length img' = length img
  ∧ (∀ y, length <$> (img' !! y) = length <$> (img !! y))
  ∧ (∀ y x, is_Some (pixel img' y x) ↔ is_Some (pixel img y x)).
Proof.
  intros (c & -> & _)%render_Return_disks.
  split; [apply (shape_fill_disks (disk_sequence c) img) |].
  split; [intros y; apply fill_disks_row_length |].
  intros y x. rewrite pixel_fill_disks. apply fmap_is_Some.
Qed.

Lemma render_keeps_shape_witness :
  ∃ img',
    @Teleporter.render minigrid_constants uint8 (blue_grey true)
      (full 2 5 (1, 2, 3)) = Return img'
    ∧ length img' = 2%nat
    ∧ length <$> (img' !! 1%nat) = Some 5%nat.
Proof.
  eexists. split; [reflexivity |].
  destruct (@render_keeps_shape minigrid_constants uint8 (blue_grey true)
              (full 2 5 (1, 2, 3)) _ eq_refl) as (Hlen & Hrow & _).
  split; [exact Hlen | exact (Hrow 1%nat)].
Defined.

(** X9.  A render covers whatever an earlier render painted: rendering a
    teleporter into the buffer another render left gives the buffer its
    render into the original bitmap gives.  Rendering twice is rendering
    once, and a tile redrawn after the flag has flipped shows no trace of
    the earlier state. *)
Theorem render_covers_earlier `{Minigrid} `{Dtype} t1 t2 img img1 :
  Teleporter.render t1 img = Return img1 →
  Teleporter.render t2 img1 = Teleporter.render t2 img.
Proof.
  intros (c1 & -> & _)%render_Return_disks.
  destruct (Teleporter.render t2 img) as [img2 | e] eqn:Hr2.
  - destruct (render_Return_disks _ _ _ Hr2) as (c2 & -> & Hall).
    rewrite Hall. by rewrite fill_disks_covers.
  - unfold Teleporter.render, getitem in *.
    destruct (COLORS !! active_colour t2); [| done].
    destruct (COLORS !! inactive_colour t2); [| done].
    by destruct (is_active t2).
Qed.

Lemma render_covers_earlier_witness :
  ∃ img1,
    @Teleporter.render minigrid_constants uint8 (blue_grey true)
      (full 5 5 (7, 7, 7)) = Return img1
    ∧ @Teleporter.render minigrid_constants uint8 (blue_grey false) img1
      = @Teleporter.render minigrid_constants uint8 (blue_grey false)
          (full 5 5 (7, 7, 7)).
Proof.
  eexists. split; [reflexivity |].
  apply (@render_covers_earlier minigrid_constants uint8 (blue_grey true)).
  reflexivity.
Defined.

(** X10.  A render fails only at its two lookups, before it writes: it
    raises KeyError exactly when [active_colour] or [inactive_colour] is not
    a key of [COLORS], whichever branch would run, never stops at an
    assertion, and returns a buffer exactly when both are keys. *)
Theorem render_raises `{Minigrid} `{Dtype} (t : Teleporter) (img : image) :
  (Teleporter.render t img = Raise KeyError
   ↔ COLORS !! active_colour t = None ∨ COLORS !! inactive_colour t = None)
  ∧ Teleporter.render t img ≠ Raise AssertionError
  ∧ ((∃ img', Teleporter.render t img = Return img')
     ↔ is_Some (COLORS !! active_colour t)
       ∧ is_Some (COLORS !! inactive_colour t)).
Proof.
  destruct (COLORS !! active_colour t) as [ca |] eqn:Hca.
  2: { rewrite render_missing_colour by (left; exact Hca).
       split; [| split]; [split; [by left | done] | done |].
       split; [intros [? ?]; done | intros [[? ?] _]; done]. }
  destruct (COLORS !! inactive_colour t) as [ci |] eqn:Hci.
  2: { rewrite render_missing_colour by (right; exact Hci).
       split; [| split]; [split; [by right | done] | done |].
       split; [intros [? ?]; done | intros [_ [? ?]]; done]. }
  assert (∃ img', Teleporter.render t img = Return img') as [img' Hr].
  { destruct (is_active t) eqn:Ha.
    - eexists. apply (render_active _ _ _ _ Ha Hca Hci).
    - eexists. apply (render_inactive _ _ _ _ Ha Hca Hci). }
  rewrite Hr. split; [| split]; [| done |].
  - split; [done | intros [? | ?]; done].
  - split; [intros _; split; by eexists | intros _; by eexists].
Qed.

Lemma render_raises_witness :
  @Teleporter.render minigrid_constants uint8
    (MkTeleporter "teleporter" "grey" None None None false "pink" "grey")
    (full 3 3 (0, 0, 0)) = Raise KeyError.
Proof.
  apply (@render_raises minigrid_constants uint8). left. reflexivity.
Defined.

(** X11.  The radial profile of a render, for either state, off the five
    circles.  With [c] the active colour of an active teleporter, or half
    the inactive colour of an inactive one, a pixel at squared distance [d]
    from the centre of the tile ends with [c] for [d] below 0.12², black
    strictly between 0.12² and 0.16², [c] strictly between 0.16² and 0.20²,
    black strictly between 0.20² and 0.40², [c] strictly between 0.40² and
    0.48², and its old value beyond 0.48². *)
Theorem render_radial_profile `{Minigrid} `{Dtype} t img img' ca ci :
  COLORS !! active_colour t = Some ca →
  COLORS !! inactive_colour t = Some ci →
  Teleporter.render t img = Return img' →
  ∀ y x p, pixel img y x = Some p →
    let d := dist2 img y x in
    let c := if is_active t then ca else scale 0.5 ci in
    ((d < 0.12 * 0.12)%Q → pixel img' y x = Some (store c))
    ∧ ((0.12 * 0.12 < d ∧ d < 0.16 * 0.16)%Q →
         pixel img' y x = Some (store black))
    ∧ ((0.16 * 0.16 < d ∧ d < 0.20 * 0.20)%Q →
         pixel img' y x = Some (store c))
    ∧ ((0.20 * 0.20 < d ∧ d < 0.40 * 0.40)%Q →
         pixel img' y x = Some (store black))
    ∧ ((0.40 * 0.40 < d ∧ d < 0.48 * 0.48)%Q →
         pixel img' y x = Some (store c))
    ∧ ((0.48 * 0.48 < d)%Q → pixel img' y x = Some p).
Proof.
  intros Hca Hci Hr y x p Hp d c.
  rewrite (render_pixel _ _ _ _ _ y x Hca Hci Hr), Hp. cbn. fold d c.
  repeat split.
  - intros Hd%Qlt_le_weak. by rewrite layer_at_core.
  - intros [Hlo Hhi%Qlt_le_weak]. by rewrite layer_at_inner_black.
  - intros [Hlo Hhi%Qlt_le_weak]. by rewrite layer_at_inner_ring.
  - intros [Hlo Hhi%Qlt_le_weak]. by rewrite layer_at_outer_black.
  - intros [Hlo Hhi%Qlt_le_weak]. by rewrite layer_at_outer_ring.
  - intros Hlo. by rewrite layer_at_outside.
Qed.

Lemma render_radial_profile_witness :
  ∃ img',
    @Teleporter.render minigrid_constants uint8 (blue_grey false)
      (full 11 11 (9, 9, 9)) = Return img'
    ∧ pixel img' 5 5 = Some (50, 50, 50)
    ∧ pixel img' 5 7 = Some (50, 50, 50)
    ∧ pixel img' 5 8 = Some (0, 0, 0)
    ∧ pixel img' 0 0 = Some (9, 9, 9).
Proof.
  eexists. split; [vm_compute; reflexivity |].
  pose proof (@render_radial_profile minigrid_constants uint8
                (blue_grey false) (full 11 11 (9, 9, 9)) _
                (0, 0, 255)%Q (100, 100, 100)%Q eq_refl eq_refl eq_refl)
    as Hprofile.
  split; [| split; [| split]].
  - destruct (Hprofile 5%nat 5%nat (9, 9, 9) eq_refl) as (Hcore & _).
    apply Hcore. by vm_compute.
  - destruct (Hprofile 5%nat 7%nat (9, 9, 9) eq_refl)
      as (_ & _ & Hring & _).
    apply Hring. by vm_compute.
  - destruct (Hprofile 5%nat 8%nat (9, 9, 9) eq_refl)
      as (_ & _ & _ & Hblack & _).
    apply Hblack. by vm_compute.
  - destruct (Hprofile 0%nat 0%nat (9, 9, 9) eq_refl)
      as (_ & _ & _ & _ & _ & Hout).
    apply Hout. by vm_compute.
Defined.

(** X12.  On a freshly constructed teleporter the rings are drawn from its
    [color] attribute: in the RGB value of that colour when it is active,
    in half of it when it is not. *)
Theorem render_constructed `{Minigrid} `{Dtype} (active : bool)
    (ac ic : string) t ca ci (img : image) :
  Teleporter.init active ac ic = Return t →
  COLORS !! ac = Some ca →
  COLORS !! ic = Some ci →
  ∃ c, COLORS !! color t = Some c
       ∧ Teleporter.render t img =
           Return (fill_disks
                     (disk_sequence (if active then c else scale 0.5 c))
                     img).
Proof.
  intros ->%Teleporter_init_inv Hca Hci. cbn [color].
  destruct active.
  - exists ca. split; [done |]. by apply (render_active _ _ ca ci).
  - exists ci. split; [done |]. by apply (render_inactive _ _ ca ci).
Qed.

Lemma render_constructed_witness :
  ∃ t,
    @Teleporter.init minigrid_constants false "blue" "grey" = Return t
    ∧ @Teleporter.render minigrid_constants uint8 t (full 1 1 (0, 0, 0))
      = Return (full 1 1 (50, 50, 50)).
Proof.
  eexists. split; [reflexivity |].
  destruct (@render_constructed minigrid_constants uint8 false "blue"
              "grey" _ (0, 0, 255)%Q (100, 100, 100)%Q
              (full 1 1 (0, 0, 0)) eq_refl eq_refl eq_refl)
    as (c & Hc & Hr).
  rewrite Hr. vm_compute in Hc. injection Hc as <-.
  vm_compute. reflexivity.
Defined.

(** ** The geometry of the drawing *)

Section geometry.
Context `{Dtype}.

Lemma layer_at_Qeq d d' : (d == d')%Q → layer_at d = layer_at d'.
Proof.
  intros Hd.
  assert (∀ r, Qle_bool d r = Qle_bool d' r) as Hle
    by (intros r; by rewrite Hd).
  unfold layer_at. by rewrite !Hle.
Qed.

(** The pixel mirrored about the middle of an axis is as far from it. *)
Lemma coord_mirror i n :
  (i < n)%nat → (coord (n - 1 - i) n - 0.5 == - (coord i n - 0.5))%Q.
Proof.
  intros Hi. unfold coord.
  replace (Z.of_nat (n - 1 - i))
    with (Z.of_nat n + - (1) + - Z.of_nat i)%Z by lia.
  rewrite !inject_Z_plus, !inject_Z_opp.
  assert (~ inject_Z (Z.of_nat n) == 0)%Q as Hn.
  { change 0%Q with (inject_Z 0). rewrite inject_Z_injective. lia. }
  field. exact Hn.
Qed.

Lemma dist2_mirror_x (img : image) y x :
  (x < shape1 img)%nat →
  (dist2 img y (shape1 img - 1 - x) == dist2 img y x)%Q.
Proof.
  intros Hx. unfold dist2. cbn zeta.
  rewrite (coord_mirror x (shape1 img) Hx). ring.
Qed.

Lemma dist2_mirror_y (img : image) y x :
  (y < shape0 img)%nat →
  (dist2 img (shape0 img - 1 - y) x == dist2 img y x)%Q.
Proof.
  intros Hy. unfold dist2. cbn zeta.
  rewrite (coord_mirror y (shape0 img) Hy). ring.
Qed.

Lemma dist2_transpose (img : image) y x :
  shape0 img = shape1 img → (dist2 img x y == dist2 img y x)%Q.
Proof. intros Hsq. unfold dist2. cbn zeta. rewrite Hsq. ring. Qed.

(** The first pixel of a line of at least four is within an eighth of the
    tile's edge, and a corner with both coordinates there is outside the
    largest disk. *)
Lemma coord_first n :
  (4 ≤ n)%nat → (0 < coord 0 n)%Q ∧ (coord 0 n <= 1 # 8)%Q.
Proof.
  intros Hn. unfold coord.
  assert (4 <= inject_Z (Z.of_nat n))%Q as H4.
  { change 4%Q with (inject_Z 4). rewrite <- Zle_Qle. lia. }
  change (inject_Z (Z.of_nat 0)) with 0%Q.
  split.
  - apply Qlt_shift_div_l; lra.
  - apply Qle_shift_div_r; lra.
Qed.

Lemma corner_outside (img : image) n :
  shape0 img = n → shape1 img = n → (4 ≤ n)%nat →
  (0.48 * 0.48 < dist2 img 0 0)%Q.
Proof.
  intros H0 H1 Hn. unfold dist2. cbn zeta. rewrite H0, H1.
  destruct (coord_first n Hn) as [Hpos Hle]. nra.
Qed.

(** Pixels as far from the centre as each other, when painted, are painted
    alike. *)
Lemma fill_disks_same_distance c (img : image) y x y' x' :
  (dist2 img y' x' == dist2 img y x)%Q →
  is_Some (pixel img y x) → is_Some (pixel img y' x') →
  layer_at (dist2 img y x) ≠ Untouched →
  pixel (fill_disks (disk_sequence c) img) y' x'
  = pixel (fill_disks (disk_sequence c) img) y x.
Proof.
  intros Hd [p Hp] [p' Hp'] Hl. rewrite !pixel_fill_disks, Hp, Hp'.
  rewrite (layer_at_Qeq _ _ Hd). cbn.
  by destruct (layer_at (dist2 img y x)).
Qed.
End geometry.

(** X13.  The drawing is symmetric off the five circles.  A painted pixel
    whose centre lies on none of the circles and its mirror image about the
    vertical middle of the tile end with the same value, and so for the
    horizontal middle; on a square bitmap so do such a pixel and its
    transpose. *)
Theorem render_symmetric `{Minigrid} `{Dtype} t img img' y x :
  Teleporter.render t img = Return img' →
  is_Some (pixel img y x) →
  ¬ on_disk_boundary (dist2 img y x) →
  layer_at (dist2 img y x) ≠ Untouched →
  ((x < shape1 img)%nat →
     is_Some (pixel img y (shape1 img - 1 - x)) →
     pixel img' y (shape1 img - 1 - x) = pixel img' y x)
  ∧ ((y < shape0 img)%nat →
       is_Some (pixel img (shape0 img - 1 - y) x) →
       pixel img' (shape0 img - 1 - y) x = pixel img' y x)
  ∧ (shape0 img = shape1 img →
       is_Some (pixel img x y) →
       pixel img' x y = pixel img' y x).
Proof.
  intros (c & -> & _)%render_Return_disks Hp _ Hl.
  split; [| split].
  - intros Hx Hp'.
    by apply fill_disks_same_distance; [apply dist2_mirror_x | ..].
  - intros Hy Hp'.
    by apply fill_disks_same_distance; [apply dist2_mirror_y | ..].
  - intros Hsq Hp'.
    by apply fill_disks_same_distance; [apply dist2_transpose | ..].
Qed.

Lemma render_symmetric_witness :
  ∃ img',
    @Teleporter.render minigrid_constants uint8 (blue_grey true)
      (full 7 7 (9, 9, 9)) = Return img'
    ∧ pixel img' 1 5 = pixel img' 1 1
    ∧ pixel img' 5 1 = pixel img' 1 1.
Proof.
  eexists. split; [vm_compute; reflexivity |].
  destruct (@render_symmetric minigrid_constants uint8 (blue_grey true)
              (full 7 7 (9, 9, 9)) _ 1%nat 1%nat eq_refl)
    as (Hx & Hy & _).
  - by eexists.
  - vm_compute. intros Hb.
    repeat (destruct Hb as [Hb | Hb]; [discriminate |]). discriminate.
  - vm_compute. discriminate.
  - split.
    + apply Hx; [vm_compute; lia | by eexists].
    + apply Hy; [vm_compute; lia | by eexists].
Defined.

(** X14.  On a square bitmap of side at least 4 a render leaves the four
    corner pixels as they were. *)
Theorem render_spares_corners `{Minigrid} `{Dtype} t img img' n :
  Teleporter.render t img = Return img' →
  shape0 img = n → shape1 img = n → (4 ≤ n)%nat →
  pixel img' 0 0 = pixel img 0 0
  ∧ pixel img' 0 (n - 1) = pixel img 0 (n - 1)
  ∧ pixel img' (n - 1) 0 = pixel img (n - 1) 0
  ∧ pixel img' (n - 1) (n - 1) = pixel img (n - 1) (n - 1).
Proof.
  intros (c & -> & _)%render_Return_disks Hrows Hcols Hn.
  pose proof (corner_outside img n Hrows Hcols Hn) as Hout.
  assert (∀ y x, (dist2 img y x == dist2 img 0 0)%Q →
            pixel (fill_disks (disk_sequence c) img) y x = pixel img y x)
    as Hkeep.
  { intros y x Hd. rewrite pixel_fill_disks.
    rewrite (layer_at_Qeq _ _ Hd), (layer_at_outside _ Hout).
    by destruct (pixel img y x). }
  assert (dist2 img 0 (n - 1) == dist2 img 0 0)%Q as Hx.
  { replace (n - 1)%nat with (shape1 img - 1 - 0)%nat by lia.
    apply dist2_mirror_x. lia. }
  assert (dist2 img (n - 1) 0 == dist2 img 0 0)%Q as Hy.
  { replace (n - 1)%nat with (shape0 img - 1 - 0)%nat by lia.
    apply dist2_mirror_y. lia. }
  assert (dist2 img (n - 1) (n - 1) == dist2 img 0 0)%Q as Hxy.
  { rewrite <- Hx.
    replace (n - 1)%nat with (shape0 img - 1 - 0)%nat at 1 by lia.
    apply dist2_mirror_y. lia. }
  repeat split; apply Hkeep; [reflexivity | done | done | done].
Qed.

Lemma render_spares_corners_witness :
  ∃ img',
    @Teleporter.render minigrid_constants uint8 (blue_grey true)
      (full 4 4 (9, 9, 9)) = Return img'
    ∧ pixel img' 0 0 = Some (9, 9, 9)
    ∧ pixel img' 3 3 = Some (9, 9, 9).
Proof.
  eexists. split; [vm_compute; reflexivity |].
  destruct (@render_spares_corners minigrid_constants uint8
              (blue_grey true) (full 4 4 (9, 9, 9)) _ 4%nat
              eq_refl eq_refl eq_refl) as (H00 & _ & _ & H33).
  - lia.
  - split; [exact H00 | exact H33].
Defined.
